(** * digital_ocean_domain: the DigitalOcean domain module of Ansible

    A shallow embedding of
    [lib/ansible/modules/cloud/digital_ocean/digital_ocean_domain.py]
    ([DoManager], [core], [main]) and the properties of its
    reconciliation procedure.

    The module talks to the provider through [DigitalOceanHelper]
    ([get], [post], [put], [delete]) and reports through
    [AnsibleModule.exit_json] / [AnsibleModule.fail_json].  Both live in
    [ansible.module_utils], outside this file: the helper is a parameter
    of the development (any function from requests to replies over any
    provider state), and the two reporting calls end the run with the
    keyword arguments they were given. *)

From Stdlib Require Import ZArith Bool String List DecimalString.
Import ListNotations.
Local Open Scope string_scope.
Local Open Scope Z_scope.

(** ** Python values *)

(** The values that flow through the module: what the helper hands back
    and what the module reports.  [VObj] is an object read by attribute
    ([domain.id], [resp.status_code]); [VDict] is a mapping read by key
    ([resp['domains']], ['message' in domain]). *)
#[local] Set Warnings "-register-all".
Inductive value : Type :=
| VNone
| VBool (b : bool)
| VInt (z : Z)
| VStr (s : string)
| VList (items : list value)
| VDict (entries : list (string * value))
| VObj (attrs : list (string * value)).

(** Exceptions of class [Exception] the module can meet. *)
Inductive exn : Type :=
| AttributeError (msg : string)
| KeyError (key : string)
| TypeError (msg : string)
| HelperError (msg : string).

(** [str(e)], which is what [to_native(e)] yields. *)
Definition to_native (e : exn) : string :=
  match e with
  | AttributeError msg => msg
  | KeyError key => "'" ++ key ++ "'"
  | TypeError msg => msg
  | HelperError msg => msg
  end.

Definition exn_class (e : exn) : string :=
  match e with
  | AttributeError _ => "AttributeError"
  | KeyError _ => "KeyError"
  | TypeError _ => "TypeError"
  | HelperError _ => "Exception"
  end.

(** [traceback.format_exc()]: only its last line, [Class: message], is
    modelled; the frames above it name files and line numbers. *)
Definition format_exc (e : exn) : string :=
  exn_class e ++ ": " ++ to_native e.

(** A pure evaluation step: a value, or a raised exception. *)
Inductive res (A : Type) : Type :=
| Ok (a : A)
| Err (e : exn).
Arguments Ok {A} a.
Arguments Err {A} e.

Definition type_name (v : value) : string :=
  match v with
  | VNone => "NoneType"
  | VBool _ => "bool"
  | VInt _ => "int"
  | VStr _ => "str"
  | VList _ => "list"
  | VDict _ => "dict"
  | VObj _ => "object"
  end.

Fixpoint lookup (k : string) (l : list (string * value)) : option value :=
  match l with
  | [] => None
  | (k', v) :: rest => if String.eqb k k' then Some v else lookup k rest
  end.

(** [bool(v)], as used by [not domain]. *)
Definition truthy (v : value) : bool :=
  match v with
  | VNone => false
  | VBool b => b
  | VInt z => negb (z =? 0)
  | VStr s => negb (String.eqb s "")
  | VList items => match items with [] => false | _ => true end
  | VDict entries => match entries with [] => false | _ => true end
  | VObj _ => true
  end.

(** [v.a] *)
Definition getattr (v : value) (a : string) : res value :=
  match v with
  | VObj attrs =>
      match lookup a attrs with
      | Some x => Ok x
      | None => Err (AttributeError ("'object' object has no attribute '" ++ a ++ "'"))
      end
  | _ => Err (AttributeError
                ("'" ++ type_name v ++ "' object has no attribute '" ++ a ++ "'"))
  end.

(** [v[k]] for a string key [k] *)
Definition subscript (v : value) (k : string) : res value :=
  match v with
  | VDict entries =>
      match lookup k entries with
      | Some x => Ok x
      | None => Err (KeyError k)
      end
  | VStr _ => Err (TypeError "string indices must be integers")
  | VList _ => Err (TypeError "list indices must be integers")
  | _ => Err (TypeError ("'" ++ type_name v ++ "' object is not subscriptable"))
  end.

(** [v == n] for an [int] [n] *)
Definition eq_int (v : value) (n : Z) : bool :=
  match v with
  | VInt z => z =? n
  | VBool b => Z.b2z b =? n
  | _ => false
  end.

(** [v == s] for a [str] [s] *)
Definition eq_str (v : value) (s : string) : bool :=
  match v with
  | VStr s' => String.eqb s' s
  | _ => false
  end.

(** [v == o] for a module parameter of type [str] that may be [None] *)
Definition eq_opt_str (v : value) (o : option string) : bool :=
  match o with
  | Some s => eq_str v s
  | None => match v with VNone => true | _ => false end
  end.

Fixpoint is_substring (needle hay : string) : bool :=
  String.prefix needle hay
  || match hay with
     | EmptyString => false
     | String _ rest => is_substring needle rest
     end.

(** [k in v] for a string [k] *)
Definition contains (k : string) (v : value) : res bool :=
  match v with
  | VDict entries =>
      Ok (match lookup k entries with Some _ => true | None => false end)
  | VList items => Ok (existsb (fun x => eq_str x k) items)
  | VStr s => Ok (is_substring k s)
  | _ => Err (TypeError ("argument of type '" ++ type_name v ++ "' is not iterable"))
  end.

Fixpoint chars (s : string) : list value :=
  match s with
  | EmptyString => []
  | String c rest => VStr (String c EmptyString) :: chars rest
  end.

(** The items a [for x in v] loop visits. *)
Definition iter (v : value) : res (list value) :=
  match v with
  | VList items => Ok items
  | VDict entries => Ok (map (fun kv => VStr (fst kv)) entries)
  | VStr s => Ok (chars s)
  | _ => Err (TypeError ("'" ++ type_name v ++ "' object is not iterable"))
  end.

(** ['%s' % x] for the module parameters, which are [None] when not given. *)
Definition fmt_int (o : option Z) : string :=
  match o with
  | Some z => NilZero.string_of_int (Z.to_int z)
  | None => "None"
  end.

Definition fmt_str (o : option string) : string :=
  match o with
  | Some s => s
  | None => "None"
  end.

Definition of_opt_str (o : option string) : value :=
  match o with
  | Some s => VStr s
  | None => VNone
  end.

(** ** Requests, reports and the run monad *)

(** A call on [DigitalOceanHelper]: the path, and the [data] keyword of
    [post] and [put]. *)
Inductive Request : Type :=
| GET (path : string)
| POST (path : string) (data : value)
| PUT (path : string) (data : value)
| DELETE (path : string).

(** The calls that change the provider: create, update, delete. *)
Definition is_write (r : Request) : bool :=
  match r with
  | GET _ => false
  | POST _ _ | PUT _ _ | DELETE _ => true
  end.

Definition writes (l : list Request) : list Request := filter is_write l.

(** What the module hands to the host: the keyword arguments of the
    [exit_json] or [fail_json] call that ended the run. *)
Inductive Report : Type :=
| ExitJson (kwargs : list (string * value))
| FailJson (kwargs : list (string * value)).

(** How a piece of the module ends: it returns, it raises, or it has
    reported and left ([exit_json] and [fail_json] raise [SystemExit],
    which [except Exception] does not catch). *)
Inductive Result (A : Type) : Type :=
| Return (a : A)
| Raise (e : exn)
| Exit (r : Report).
Arguments Return {A} a.
Arguments Raise {A} e.
Arguments Exit {A} r.

Module State.
(** [choices=['present', 'absent']] *)
Inductive t : Type := present | absent.
End State.

Module Params.
(** [module.params] after [AnsibleModule] has parsed [argument_spec]:
    a parameter that was not given is [None]. *)
Record t : Type := mk {
  state : State.t;
  api_token : option string;
  name : option string;
  id : option Z;
  ip : option string
}.
End Params.

(** [required_one_of=(['id', 'name'],)] *)
Definition required_one_of (module : Params.t) : bool :=
  match Params.id module, Params.name module with
  | None, None => false
  | _, _ => true
  end.

Record DoManager : Type := {
  domain_name : option string;
  domain_ip : option string;
  domain_id : option Z
}.

(** [DoManager.__init__] *)
Definition DoManager_init (module : Params.t) : DoManager :=
  {| domain_name := Params.name module;
     domain_ip := Params.ip module;
     domain_id := Params.id module |}.

Section Embedding.

(** The helper and the provider behind it: a provider state and the
    reply to each request, which is a value or a raised exception. *)
Variable Server : Type.
Variable http : Request -> Server -> Server * res value.

(** The provider, and the calls issued so far, oldest first. *)
Record World : Type := {
  server : Server;
  calls : list Request
}.

Definition M (A : Type) : Type := World -> World * Result A.

Definition ret {A} (a : A) : M A := fun w => (w, Return a).

Definition bind {A B} (m : M A) (k : A -> M B) : M B :=
  fun w =>
    match m w with
    | (w', Return a) => k a w'
    | (w', Raise e) => (w', Raise e)
    | (w', Exit r) => (w', Exit r)
    end.

Definition lift {A} (r : res A) : M A :=
  fun w => (w, match r with Ok a => Return a | Err e => Raise e end).

Definition request (req : Request) : M value :=
  fun w =>
    let (s', r) := http req (server w) in
    ({| server := s'; calls := calls w ++ [req] |},
     match r with Ok v => Return v | Err e => Raise e end).

(** Modelled from the spec: [AnsibleModule.exit_json] and
    [AnsibleModule.fail_json] (the host framework's result reporting,
    not in this file).  Each hands the structured result to the calling
    host and is terminal: nothing of the module runs after it. *)
Definition exit_json (kwargs : list (string * value)) : M unit :=
  fun w => (w, Exit (ExitJson kwargs)).

Definition fail_json (kwargs : list (string * value)) : M unit :=
  fun w => (w, Exit (FailJson kwargs)).

Notation "x <- m ;; k" := (bind m (fun x => k))
  (at level 61, m at next level, right associativity).
Notation "m ;;; k" := (bind m (fun _ => k))
  (at level 61, right associativity).

(** *** [DoManager] *)

Definition all_domains (self : DoManager) : M value :=
  resp <- request (GET "domains/") ;;
  lift (subscript resp "domains").

(** The body of the [for domain in domains] loop of [find]. *)
Fixpoint find_loop (domain_id : Z) (domain_name : string)
         (domains : list value) : res value :=
  match domains with
  | [] => Ok (VBool false)
  | domain :: rest =>
      match getattr domain "id" with
      | Err e => Err e
      | Ok i =>
          if eq_int i domain_id then Ok domain
          else
            match getattr domain "name" with
            | Err e => Err e
            | Ok n =>
                if eq_str n domain_name then Ok domain
                else find_loop domain_id domain_name rest
            end
      end
  end.

Definition find (self : DoManager) : M value :=
  match domain_name self, domain_id self with
  | Some name, Some id =>
      domains <- all_domains self ;;
      items <- lift (iter domains) ;;
      lift (find_loop id name items)
  | _, _ => ret (VBool false)
  end.

Definition add (self : DoManager) : M value :=
  let params := VDict [("name", of_opt_str (domain_name self));
                       ("ip_address", of_opt_str (domain_ip self))] in
  resp <- request (POST "domains/" params) ;;
  status <- lift (getattr resp "status_code") ;;
  json <- lift (getattr resp "json") ;;
  if eq_int status 201 then lift (subscript json "domain")
  else ret json.

Definition all_domain_records (self : DoManager) : M value :=
  resp <- request (GET ("domains/" ++ fmt_int (domain_id self) ++ "/records/")) ;;
  lift (subscript resp "domain_records").

Definition destroy_domain (self : DoManager) : M value :=
  request (DELETE ("domains/" ++ fmt_int (domain_id self))) ;;;
  ret (VBool true).

Definition edit_domain_record (self : DoManager) : M value :=
  let params := VDict [("name", of_opt_str (domain_name self))] in
  resp <- request (PUT ("domains/" ++ fmt_int (domain_id self) ++ "/records/"
                          ++ fmt_str (domain_ip self)) params) ;;
  lift (subscript resp "domain_record").

(** *** [core] *)

(** The [for record in records] loop of [core], started with
    [at_record = None]: the last record named "@" of type "A" stays. *)
Fixpoint scan_records (records : list value) (at_record : value) : res value :=
  match records with
  | [] => Ok at_record
  | record :: rest =>
      match getattr record "name" with
      | Err e => Err e
      | Ok n =>
          if eq_str n "@" then
            match getattr record "type" with
            | Err e => Err e
            | Ok t =>
                if eq_str t "A" then scan_records rest record
                else scan_records rest at_record
            end
          else scan_records rest at_record
      end
  end.

Definition core (module : Params.t) : M unit :=
  let do_manger := DoManager_init module in
  let state := Params.state module in
  domain <- find do_manger ;;
  match state with
  | State.present =>
      if negb (truthy domain) then
        domain <- add do_manger ;;
        has_message <- lift (contains "message" domain) ;;
        if has_message then
          msg <- lift (subscript domain "message") ;;
          fail_json [("changed", VBool false); ("msg", msg)]
        else
          exit_json [("changed", VBool true); ("domain", domain)]
      else
        records <- all_domain_records do_manger ;;
        items <- lift (iter records) ;;
        at_record <- lift (scan_records items VNone) ;;
        data <- lift (getattr at_record "data") ;;
        if negb (eq_opt_str data (Params.ip module)) then
          edit_domain_record do_manger ;;;
          refreshed <- find do_manger ;;
          exit_json [("changed", VBool true); ("domain", refreshed)]
        else ret tt
  | State.absent =>
      (if negb (truthy domain) then
         fail_json [("changed", VBool false); ("msg", VStr "Domain not found.")]
       else ret tt) ;;;
      delete_event <- destroy_domain do_manger ;;
      exit_json [("changed", delete_event)]
  end.

(** *** [main] *)

(** [main] from the call of [core] on: [module] is the
    [AnsibleModule] the framework has already built and accepted. *)
Definition main (module : Params.t) : M unit :=
  fun w =>
    match core module w with
    | (w', Raise e) =>
        fail_json [("msg", VStr (to_native e));
                   ("exception", VStr (format_exc e))] w'
    | other => other
    end.

(** One run of the module against a provider in state [s]. *)
Definition run (module : Params.t) (s : Server) : World * Result unit :=
  main module {| server := s; calls := [] |}.

End Embedding.

Arguments server {Server} w.
Arguments calls {Server} w.
Arguments Build_World {Server} server calls.
Arguments ret {Server A} a w.
Arguments bind {Server A B} m k w.
Arguments lift {Server A} r w.
Arguments request {Server} http req w.
Arguments exit_json {Server} kwargs w.
Arguments fail_json {Server} kwargs w.
Arguments all_domains {Server} http self w.
Arguments find {Server} http self w.
Arguments add {Server} http self w.
Arguments all_domain_records {Server} http self w.
Arguments destroy_domain {Server} http self w.
Arguments edit_domain_record {Server} http self w.
Arguments core {Server} http module w.
Arguments main {Server} http module w.
Arguments run {Server} http module s.

(** ** A provider *)

Module Provider.

(** Modelled from the spec: the remote API the module consumes (the
    provider itself is a service outside the repository).  [GET domains/]
    lists the domains, [POST domains/] with [{name, ip_address}] creates
    one and answers with the created status, or with an error payload
    that carries [message]; [GET domains/{id}/records/] lists the
    records, [PUT domains/{id}/records/{record_id}] sets the fields it
    is given on that record, [DELETE domains/{id}] removes the domain.
    A path that names nothing is answered with an error payload. *)
Record DomainRecord : Type := {
  record_id : Z;
  record_name : string;
  record_type : string;
  record_data : string
}.

Record Domain : Type := {
  id : Z;
  name : string;
  records : list DomainRecord
}.

Definition t : Type := list Domain.

Definition record_obj (r : DomainRecord) : value :=
  VObj [("id", VInt (record_id r)); ("name", VStr (record_name r));
        ("type", VStr (record_type r)); ("data", VStr (record_data r))].

Definition domain_obj (d : Domain) : value :=
  VObj [("id", VInt (id d)); ("name", VStr (name d))].

Definition domain_json (d : Domain) : value :=
  VDict [("id", VInt (id d)); ("name", VStr (name d))].

Definition not_found : value :=
  VDict [("id", VStr "not_found");
         ("message", VStr "The resource you were accessing could not be found.")].

Definition unprocessable (msg : string) : value :=
  VObj [("status_code", VInt 422);
        ("json", VDict [("id", VStr "unprocessable_entity"); ("message", VStr msg)])].

Definition domain_path (d : Domain) : string :=
  "domains/" ++ fmt_int (Some (id d)).

Definition records_path (d : Domain) : string :=
  domain_path d ++ "/records/".

Definition record_path (d : Domain) (r : DomainRecord) : string :=
  records_path d ++ fmt_int (Some (record_id r)).

Definition fresh_id (s : t) : Z :=
  1 + fold_right (fun d m => Z.max (id d) m) 0 s.

Definition set_fields (data : list (string * value)) (r : DomainRecord) : DomainRecord :=
  {| record_id := record_id r;
     record_name := match lookup "name" data with Some (VStr n) => n | _ => record_name r end;
     record_type := match lookup "type" data with Some (VStr n) => n | _ => record_type r end;
     record_data := match lookup "data" data with Some (VStr n) => n | _ => record_data r end |}.

(** [PUT path data] on the records of [d]: the record the path names. *)
Fixpoint put_record (path : string) (data : list (string * value)) (d : Domain)
         (rs : list DomainRecord) : option (DomainRecord * list DomainRecord) :=
  match rs with
  | [] => None
  | r :: rest =>
      if String.eqb path (record_path d r) then
        Some (set_fields data r, set_fields data r :: rest)
      else
        match put_record path data d rest with
        | Some (r', rest') => Some (r', r :: rest')
        | None => None
        end
  end.

Fixpoint put_domain (path : string) (data : list (string * value)) (s : t)
  : option (DomainRecord * t) :=
  match s with
  | [] => None
  | d :: rest =>
      match put_record path data d (records d) with
      | Some (r', rs') =>
          Some (r', {| id := id d; name := name d; records := rs' |} :: rest)
      | None =>
          match put_domain path data rest with
          | Some (r', rest') => Some (r', d :: rest')
          | None => None
          end
      end
  end.

(** Modelled from the spec: the provider's reply to one request, after
    the remote API surface the module consumes; the helper hands the
    reply back without raising. *)
Definition handle (req : Request) (s : t) : t * res value :=
  match req with
  | GET path =>
      if String.eqb path "domains/" then
        (s, Ok (VDict [("domains", VList (map domain_obj s))]))
      else
        match List.find (fun d => String.eqb path (records_path d)) s with
        | Some d => (s, Ok (VDict [("domain_records", VList (map record_obj (records d)))]))
        | None => (s, Ok not_found)
        end
  | POST path data =>
      if String.eqb path "domains/" then
        match subscript data "name", subscript data "ip_address" with
        | Ok (VStr n), Ok (VStr a) =>
            if existsb (fun d => String.eqb (name d) n) s then
              (s, Ok (unprocessable "Name is already taken."))
            else
              let d := {| id := fresh_id s; name := n;
                          records := [{| record_id := 1; record_name := "@";
                                         record_type := "A"; record_data := a |}] |} in
              ((s ++ [d])%list,
               Ok (VObj [("status_code", VInt 201);
                         ("json", VDict [("domain", domain_json d)])]))
        | Ok (VStr _), _ => (s, Ok (unprocessable "IP address can't be blank."))
        | _, _ => (s, Ok (unprocessable "Name can't be blank."))
        end
      else (s, Ok (VObj [("status_code", VInt 404); ("json", not_found)]))
  | PUT path data =>
      match data with
      | VDict fields =>
          match put_domain path fields s with
          | Some (r', s') => (s', Ok (VDict [("domain_record", record_obj r')]))
          | None => (s, Ok not_found)
          end
      | _ => (s, Ok not_found)
      end
  | DELETE path =>
      if existsb (fun d => String.eqb path (domain_path d)) s then
        (filter (fun d => negb (String.eqb path (domain_path d))) s, Ok VNone)
      else (s, Ok not_found)
  end.

(** The record values of the root "A" records of the domain [i]. *)
Definition root_data (i : Z) (s : t) : list string :=
  flat_map (fun d =>
              if id d =? i then
                map record_data
                    (filter (fun r => String.eqb (record_name r) "@"
                                      && String.eqb (record_type r) "A") (records d))
              else []) s.

End Provider.

(** ** Sample provider states and parameters *)

Definition a_record (i : Z) (n data : string) : Provider.DomainRecord :=
  {| Provider.record_id := i; Provider.record_name := n;
     Provider.record_type := "A"; Provider.record_data := data |}.

Definition ns_record : Provider.DomainRecord :=
  {| Provider.record_id := 21; Provider.record_name := "@";
     Provider.record_type := "NS"; Provider.record_data := "ns1.digitalocean.com" |}.

(** Two domains; the second, number 7, is "my.example.com" with the
    records [rs]. *)
Definition example_provider (rs : list Provider.DomainRecord) : Provider.t :=
  [{| Provider.id := 3; Provider.name := "other.example.org";
      Provider.records := [a_record 11 "@" "10.0.0.1"] |};
   {| Provider.id := 7; Provider.name := "my.example.com";
      Provider.records := rs |}].

Definition with_root (data : string) : Provider.t :=
  example_provider [ns_record; a_record 22 "@" data; a_record 23 "www" data].

Definition without_root : Provider.t :=
  example_provider [ns_record; a_record 23 "www" "1.2.3.4"].

Definition example_params (st : State.t) (n : string) (i : option Z) (a : string)
  : Params.t :=
  Params.mk st None (Some n) i (Some a).

Definition is_set {A : Type} (o : option A) : bool :=
  match o with Some _ => true | None => false end.

Local Open Scope list_scope.

Definition start {Server : Type} (s : Server) : World Server :=
  {| server := s; calls := [] |}.

(** An entry matches when its id is the wanted id, or else its name is
    the wanted name. *)
Definition matches (i : Z) (n : string) (d : value) : bool :=
  match getattr d "id", getattr d "name" with
  | Ok x, Ok y => eq_int x i || eq_str y n
  | Ok x, Err _ => eq_int x i
  | Err _, _ => false
  end.

Definition well_formed (d : value) : Prop :=
  exists x y, getattr d "id" = Ok x /\ getattr d "name" = Ok y.

(** A record that the scan of [core] passes over: its name is not "@",
    or its type is not "A". *)
Definition not_root (record : value) : Prop :=
  exists n, getattr record "name" = Ok n
            /\ (eq_str n "@" = false
                \/ exists t, getattr record "type" = Ok t /\ eq_str t "A" = false).

(** The calls the methods of [DoManager] issue. *)
Definition create_request (self : DoManager) : Request :=
  POST "domains/" (VDict [("name", of_opt_str (domain_name self));
                          ("ip_address", of_opt_str (domain_ip self))]).

Definition records_request (self : DoManager) : Request :=
  GET ("domains/" ++ fmt_int (domain_id self) ++ "/records/")%string.

Definition delete_request (self : DoManager) : Request :=
  DELETE ("domains/" ++ fmt_int (domain_id self))%string.

Definition update_request (self : DoManager) : Request :=
  PUT ("domains/" ++ fmt_int (domain_id self) ++ "/records/"
         ++ fmt_str (domain_ip self))%string
      (VDict [("name", of_opt_str (domain_name self))]).

Definition not_found_report : Report :=
  FailJson [("changed", VBool false); ("msg", VStr "Domain not found.")].

(** A root "A" record, as the scan of [core] tests it: the type is read
    only when the name is "@". *)
Definition is_root (record : value) : bool :=
  match getattr record "name" with
  | Ok n =>
      eq_str n "@"
      && match getattr record "type" with
         | Ok t => eq_str t "A"
         | Err _ => false
         end
  | Err _ => false
  end.

(** A record the scan can test without raising: it has a name, and a
    type when the name is "@". *)
Definition scannable (record : value) : Prop :=
  exists n, getattr record "name" = Ok n
            /\ (eq_str n "@" = true -> exists t, getattr record "type" = Ok t).

Definition listing_request : Request := GET "domains/".

(** The ways a call of [core] can go: the calls it has issued, oldest
    first, and how it ended. *)
Inductive core_path (module : Params.t) : list Request -> Result unit -> Prop :=
| path_lookup_raised (e : exn) :
    core_path module [listing_request] (Raise e)
| path_absent_not_found (pre : list Request) :
    Params.state module = State.absent ->
    pre = [] \/ pre = [listing_request] ->
    core_path module pre (Exit not_found_report)
| path_delete_raised (e : exn) :
    Params.state module = State.absent ->
    core_path module [listing_request; delete_request (DoManager_init module)]
              (Raise e)
| path_deleted :
    Params.state module = State.absent ->
    core_path module [listing_request; delete_request (DoManager_init module)]
              (Exit (ExitJson [("changed", VBool true)]))
| path_create_raised (pre : list Request) (e : exn) :
    Params.state module = State.present ->
    pre = [] \/ pre = [listing_request] ->
    core_path module (pre ++ [create_request (DoManager_init module)]) (Raise e)
| path_create_refused (pre : list Request) (msg : value) :
    Params.state module = State.present ->
    pre = [] \/ pre = [listing_request] ->
    core_path module (pre ++ [create_request (DoManager_init module)])
              (Exit (FailJson [("changed", VBool false); ("msg", msg)]))
| path_created (pre : list Request) (domain : value) :
    Params.state module = State.present ->
    pre = [] \/ pre = [listing_request] ->
    core_path module (pre ++ [create_request (DoManager_init module)])
              (Exit (ExitJson [("changed", VBool true); ("domain", domain)]))
| path_records_raised (e : exn) :
    Params.state module = State.present ->
    core_path module [listing_request; records_request (DoManager_init module)]
              (Raise e)
| path_unchanged :
    Params.state module = State.present ->
    core_path module [listing_request; records_request (DoManager_init module)]
              (Return tt)
| path_update_raised (e : exn) :
    Params.state module = State.present ->
    core_path module [listing_request; records_request (DoManager_init module);
                      update_request (DoManager_init module)]
              (Raise e)
| path_refetch_raised (e : exn) :
    Params.state module = State.present ->
    core_path module [listing_request; records_request (DoManager_init module);
                      update_request (DoManager_init module); listing_request]
              (Raise e)
| path_updated (refreshed : value) :
    Params.state module = State.present ->
    core_path module [listing_request; records_request (DoManager_init module);
                      update_request (DoManager_init module); listing_request]
              (Exit (ExitJson [("changed", VBool true); ("domain", refreshed)])).

(** [main] on the outcome of [core]: an exception becomes the generic
    failure report. *)
Definition reported (r : Result unit) : Result unit :=
  match r with
  | Raise e => Exit (FailJson [("msg", VStr (to_native e));
                               ("exception", VStr (format_exc e))])
  | other => other
  end.

(** A helper whose every call raises. *)
Definition unreachable (req : Request) (s : unit) : unit * res value :=
  (s, Err (HelperError "Connection refused")).

(** The sample provider behind a helper that raises on every write. *)
Definition read_only (req : Request) (s : Provider.t) : Provider.t * res value :=
  if is_write req then (s, Err (HelperError "Forbidden"))
  else Provider.handle req s.

(** A helper that answers every call with an empty body and no status
    worth the name. *)
Definition empty_reply (req : Request) (s : unit) : unit * res value :=
  (s, Ok (VObj [("status_code", VInt 500); ("json", VNone)])).

(** ** Properties *)

Section Properties.

Variable Server : Type.
Variable http : Request -> Server -> Server * res value.

Ltac break_in H :=
  match type of H with
  | context [match ?x with _ => _ end] =>
      lazymatch x with
      | context [match _ with _ => _ end] => fail
      | _ => destruct x eqn:?; simpl in H
      end
  end.

Ltac unfold_monad :=
  unfold bind, ret, lift, request, exit_json, fail_json in *.

(** *** The run monad *)

Lemma bind_return {A B} (m : M Server A) (k : A -> M Server B)
      (w w' : World Server) (a : A) :
  m w = (w', Return a) -> bind m k w = k a w'.
Proof. unfold bind. intros ->. reflexivity. Qed.

Lemma bind_raise {A B} (m : M Server A) (k : A -> M Server B)
      (w w' : World Server) (e : exn) :
  m w = (w', Raise e) -> bind m k w = (w', Raise e).
Proof. unfold bind. intros ->. reflexivity. Qed.

Lemma bind_exit {A B} (m : M Server A) (k : A -> M Server B)
      (w w' : World Server) (rep : Report) :
  m w = (w', Exit rep) -> bind m k w = (w', Exit rep).
Proof. unfold bind. intros ->. reflexivity. Qed.

Lemma request_ok (req : Request) (w : World Server) (s' : Server) (v : value) :
  http req (server w) = (s', Ok v) ->
  request http req w = ({| server := s'; calls := calls w ++ [req] |}, Return v).
Proof. unfold request. intros ->. reflexivity. Qed.

Lemma lift_ok {A} (r : res A) (a : A) (w : World Server) :
  r = Ok a -> lift r w = (w, Return a).
Proof. intros ->. reflexivity. Qed.

Lemma lift_err {A} (r : res A) (e : exn) (w : World Server) :
  r = Err e -> @lift Server A r w = (w, Raise e).
Proof. intros ->. reflexivity. Qed.

Lemma writes_app (l l' : list Request) :
  writes (l ++ l') = writes l ++ writes l'.
Proof. apply filter_app. Qed.

(** *** The listing loop *)

Lemma getattr_ok_truthy (v x : value) (a : string) :
  getattr v a = Ok x -> truthy v = true.
Proof.
  destruct v; simpl; intros H; try discriminate; reflexivity.
Qed.

(** What [find]'s loop yields is [False] or one of the listed entries,
    and a listed entry that was yielded is truthy. *)
Lemma find_loop_result (i : Z) (n : string) (items : list value) (v : value) :
  find_loop i n items = Ok v ->
  v = VBool false \/ (In v items /\ truthy v = true).
Proof.
  induction items as [|d rest IH]; simpl; intros H.
  - left. congruence.
  - destruct (getattr d "id") as [x|e] eqn:Hid; [|discriminate].
    destruct (eq_int x i).
    + right. inversion H; subst. split; [now left|].
      eapply getattr_ok_truthy; eassumption.
    + destruct (getattr d "name") as [y|e]; [|discriminate].
      destruct (eq_str y n).
      * right. inversion H; subst. split; [now left|].
        eapply getattr_ok_truthy; eassumption.
      * destruct (IH H) as [?|[? ?]]; [now left|right; split; [now right|assumption]].
Qed.

(** On a listing of objects that all have [id] and [name], the loop
    yields the first entry that matches, and [False] when none does. *)
Lemma find_loop_first_match (i : Z) (n : string) (items : list value) :
  Forall well_formed items ->
  find_loop i n items =
  Ok (match List.find (matches i n) items with
      | Some d => d
      | None => VBool false
      end).
Proof.
  induction 1 as [|d rest [x [y [Hx Hy]]] _ IH]; simpl; [reflexivity|].
  unfold matches. rewrite Hx, Hy.
  destruct (eq_int x i); simpl; [reflexivity|].
  destruct (eq_str y n); [reflexivity|assumption].
Qed.

(** *** [find] *)

Lemma find_unset (self : DoManager) (w : World Server) :
  domain_name self = None \/ domain_id self = None ->
  find http self w = (w, Return (VBool false)).
Proof.
  unfold find. intros [H|H]; rewrite H; [reflexivity|].
  destruct (domain_name self); reflexivity.
Qed.

(** With both parameters given, [find] lists the domains once and runs
    the loop over the listing. *)
Lemma find_supplied (self : DoManager) (w : World Server) (n : string) (i : Z)
      (s' : Server) (resp ds : value) (items : list value) :
  domain_name self = Some n ->
  domain_id self = Some i ->
  http (GET "domains/") (server w) = (s', Ok resp) ->
  subscript resp "domains" = Ok ds ->
  iter ds = Ok items ->
  find http self w =
  ({| server := s'; calls := calls w ++ [GET "domains/"] |},
   match find_loop i n items with Ok v => Return v | Err e => Raise e end).
Proof.
  intros Hn Hi Hget Hsub Hiter.
  unfold find, all_domains. rewrite Hn, Hi. unfold_monad.
  rewrite Hget, Hsub, Hiter. reflexivity.
Qed.

(** [find] issues no call, or the one listing call, and never a write. *)
Lemma find_calls (self : DoManager) (w w' : World Server) (r : Result value) :
  find http self w = (w', r) ->
  (w' = w /\ r = Return (VBool false)
   /\ (domain_name self = None \/ domain_id self = None))
  \/ (calls w' = calls w ++ [GET "domains/"]
      /\ exists n i, domain_name self = Some n /\ domain_id self = Some i).
Proof.
  unfold find, all_domains.
  destruct (domain_name self) as [n|] eqn:Hn;
    [destruct (domain_id self) as [i|] eqn:Hi|].
  - intros H. right. split; [|eauto].
    unfold_monad. destruct (http (GET "domains/") (server w)) as [s' [resp|e]].
    + simpl in H. destruct (subscript resp "domains"); simpl in H.
      * destruct (iter a); inversion H; reflexivity.
      * inversion H; reflexivity.
    + inversion H; reflexivity.
  - intros H. inversion H. left. auto.
  - intros H. inversion H. left. auto.
Qed.

Lemma find_writes (self : DoManager) (w w' : World Server) (r : Result value) :
  find http self w = (w', r) -> writes (calls w') = writes (calls w).
Proof.
  intros H. destruct (find_calls _ _ _ _ H) as [[-> _]|[Hc _]]; [reflexivity|].
  rewrite Hc. unfold writes. rewrite filter_app. simpl. apply app_nil_r.
Qed.

(** A domain that was found is truthy: [find] yields [False] or an
    object of the listing. *)
Lemma find_result (self : DoManager) (w w' : World Server) (dom : value) :
  find http self w = (w', Return dom) ->
  dom = VBool false \/ truthy dom = true.
Proof.
  unfold find, all_domains.
  destruct (domain_name self) as [n|]; [destruct (domain_id self) as [i|]|];
    try (intros H; inversion H; now left).
  unfold_monad. destruct (http (GET "domains/") (server w)) as [s' [resp|e]];
    [|discriminate].
  destruct (subscript resp "domains") as [ds|e]; [|discriminate].
  destruct (iter ds) as [items|e]; [|discriminate].
  destruct (find_loop i n items) as [v|e] eqn:Hloop; [|discriminate].
  intros H. inversion H; subst.
  destruct (find_loop_result _ _ _ _ Hloop) as [?|[_ ?]]; auto.
Qed.

Lemma find_found (self : DoManager) (w w' : World Server) (dom : value) :
  find http self w = (w', Return dom) ->
  truthy dom = true ->
  calls w' = calls w ++ [GET "domains/"]
  /\ exists n i, domain_name self = Some n /\ domain_id self = Some i.
Proof.
  intros H Ht. destruct (find_calls _ _ _ _ H) as [[_ [Hr _]]|?]; [|assumption].
  inversion Hr; subst. discriminate.
Qed.

(** *** [add] *)

Lemma add_calls (self : DoManager) (w w' : World Server) (r : Result value) :
  add http self w = (w', r) -> calls w' = calls w ++ [create_request self].
Proof.
  unfold add, create_request. unfold_monad.
  destruct (http _ (server w)) as [s' [resp|e]]; intros H.
  - simpl in H. repeat break_in H; inversion H; reflexivity.
  - inversion H; reflexivity.
Qed.

Lemma edit_domain_record_calls (self : DoManager) (w w' : World Server)
      (r : Result value) :
  edit_domain_record http self w = (w', r) ->
  calls w' = calls w ++ [update_request self].
Proof.
  unfold edit_domain_record. fold (update_request self).
  unfold bind, request, lift.
  destruct (http _ (server w)) as [s' [resp|e]]; intros H.
  - repeat break_in H; inversion H; reflexivity.
  - inversion H; reflexivity.
Qed.

(** *** [core] when no domain was found *)

Lemma core_present_not_found (module : Params.t) (w0 w1 w2 : World Server)
      (dom : value) (r : Result unit) :
  Params.state module = State.present ->
  find http (DoManager_init module) w0 = (w1, Return dom) ->
  truthy dom = false ->
  core http module w0 = (w2, r) ->
  exists ra, add http (DoManager_init module) w1 = (w2, ra).
Proof.
  intros Hst Hfind Hdom. unfold core.
  rewrite (bind_return _ _ _ _ _ Hfind), Hst, Hdom. cbn [negb].
  destruct (add http (DoManager_init module) w1) as [w' [created|e|rep]] eqn:Hadd.
  - rewrite (bind_return _ _ _ _ _ Hadd). intros H. exists (Return created).
    unfold bind, lift, exit_json, fail_json in H.
    repeat break_in H; inversion H; reflexivity.
  - rewrite (bind_raise _ _ _ _ _ Hadd). intros H. inversion H; eauto.
  - rewrite (bind_exit _ _ _ _ _ Hadd). intros H. inversion H; eauto.
Qed.

Lemma main_world (module : Params.t) (w : World Server) :
  fst (main http module w) = fst (core http module w).
Proof.
  unfold main. destruct (core http module w) as [w' [[]|e|rep]]; reflexivity.
Qed.

Lemma main_exit (module : Params.t) (w w' : World Server) (rep : Report) :
  core http module w = (w', Exit rep) -> main http module w = (w', Exit rep).
Proof.
  unfold main. intros ->. reflexivity.
Qed.

(** C9.  When neither [id] nor [name] is set, [find] answers not-found
    at once: the provider is not called, so the world (provider state and
    call log) is the one it started from. *)
Theorem find_without_id_and_name (self : DoManager) (w : World Server) :
  domain_name self = None ->
  domain_id self = None ->
  find http self w = (w, Return (VBool false)).
Proof.
  intros Hn _. apply find_unset. now left.
Qed.

(** C10.  When exactly one of [id] and [name] is given, [find] answers
    not-found at once, without a call.  So a run with [state=present]
    never sees an existing domain and goes down the create path (its one
    and only call is the create request), and a run with [state=absent]
    fails with "Domain not found." without touching the provider. *)
Theorem find_with_only_one_of_id_and_name (module : Params.t) (s : Server) :
  xorb (is_set (Params.id module)) (is_set (Params.name module)) = true ->
  (forall w, find http (DoManager_init module) w = (w, Return (VBool false)))
  /\ (Params.state module = State.present ->
      calls (fst (run http module s)) = [create_request (DoManager_init module)])
  /\ (Params.state module = State.absent ->
      run http module s = (start s, Exit not_found_report)).
Proof.
  intros Hone.
  assert (Hfind : forall w, find http (DoManager_init module) w
                            = (w, Return (VBool false))).
  { intros w. apply find_unset. simpl.
    destruct (Params.id module), (Params.name module); try discriminate; auto. }
  split; [exact Hfind|split]; intros Hst.
  - unfold run. rewrite main_world.
    destruct (core http module {| server := s; calls := [] |}) as [w2 r] eqn:Hcore.
    destruct (core_present_not_found module _ _ w2 _ r Hst (Hfind _) eq_refl Hcore)
      as [ra Hadd].
    simpl. apply add_calls in Hadd. exact Hadd.
  - unfold run. apply main_exit. unfold core.
    rewrite (bind_return _ _ _ _ _ (Hfind _)), Hst. reflexivity.
Qed.

(** C8.  With [state=absent], when no domain is found the run ends in a
    failure report with [changed=False] and the message
    "Domain not found." (the literal of the source ends in a full stop),
    and no delete call, nor any other write, was issued. *)
Theorem absent_not_found_fails (module : Params.t) (s : Server)
        (w1 : World Server) (dom : value) :
  Params.state module = State.absent ->
  find http (DoManager_init module) (start s) = (w1, Return dom) ->
  truthy dom = false ->
  run http module s = (w1, Exit not_found_report)
  /\ writes (calls w1) = [].
Proof.
  intros Hst Hfind Hdom. split.
  - unfold run. apply main_exit. unfold core. fold (start s).
    rewrite (bind_return _ _ _ _ _ Hfind), Hst, Hdom. reflexivity.
  - apply find_writes in Hfind. exact Hfind.
Qed.

(** C7.  With [state=absent], when the domain is found and the delete
    call comes back without an exception, the run reports
    [changed=True] whatever the provider replied, and the delete call is
    the one write it issued. *)
Theorem absent_found_deletes (module : Params.t) (s s2 : Server)
        (w1 : World Server) (dom reply : value) :
  Params.state module = State.absent ->
  find http (DoManager_init module) (start s) = (w1, Return dom) ->
  truthy dom = true ->
  http (delete_request (DoManager_init module)) (server w1) = (s2, Ok reply) ->
  let w2 := {| server := s2;
               calls := calls w1 ++ [delete_request (DoManager_init module)] |} in
  destroy_domain http (DoManager_init module) w1 = (w2, Return (VBool true))
  /\ run http module s = (w2, Exit (ExitJson [("changed", VBool true)]))
  /\ writes (calls w2) = [delete_request (DoManager_init module)].
Proof.
  intros Hst Hfind Hdom Hdel w2.
  assert (Hd : destroy_domain http (DoManager_init module) w1
               = (w2, Return (VBool true))).
  { unfold destroy_domain.
    rewrite (bind_return _ _ _ _ _ (request_ok _ _ _ _ Hdel)). reflexivity. }
  split; [exact Hd|split].
  - unfold run. apply main_exit. unfold core. fold (start s).
    rewrite (bind_return _ _ _ _ _ Hfind), Hst, Hdom. cbn [negb].
    rewrite (bind_return _ _ w1 w1 tt eq_refl).
    rewrite (bind_return _ _ _ _ _ Hd). reflexivity.
  - subst w2. simpl calls. unfold writes. rewrite filter_app.
    apply find_writes in Hfind. unfold writes in Hfind. rewrite Hfind.
    reflexivity.
Qed.

(** C6.  [add] sends the create request; when the reply's status is
    201 ("created") it returns the domain object of the reply, and on any
    other status it returns the reply's payload as it came. *)
Theorem add_created_or_error (self : DoManager) (w : World Server) (s' : Server)
        (resp status json : value) :
  http (create_request self) (server w) = (s', Ok resp) ->
  getattr resp "status_code" = Ok status ->
  getattr resp "json" = Ok json ->
  add http self w =
  ({| server := s'; calls := calls w ++ [create_request self] |},
   if eq_int status 201 then
     match subscript json "domain" with
     | Ok domain => Return domain
     | Err e => Raise e
     end
   else Return json).
Proof.
  intros Hpost Hstatus Hjson. unfold add. fold (create_request self).
  rewrite (bind_return _ _ _ _ _ (request_ok _ _ _ _ Hpost)).
  rewrite (bind_return _ _ _ _ _ (lift_ok _ _ _ Hstatus)).
  rewrite (bind_return _ _ _ _ _ (lift_ok _ _ _ Hjson)).
  destruct (eq_int status 201); reflexivity.
Qed.


(** *** [core] when the domain was found *)

(** The scan keeps [at_record] as it was when no record is a root "A"
    record. *)
Lemma scan_records_no_root (records : list value) (at_record : value) :
  Forall not_root records -> scan_records records at_record = Ok at_record.
Proof.
  induction 1 as [|r rest [n [Hn Hr]] _ IH]; simpl; [reflexivity|].
  rewrite Hn. destruct Hr as [Hne|[t [Ht Hne]]].
  - rewrite Hne. exact IH.
  - rewrite Ht, Hne. destruct (eq_str n "@"); exact IH.
Qed.

Section Found.

Variable module : Params.t.
Variable s s2 : Server.
Variable w1 : World Server.
Variable dom resp records at_record : value.
Variable items : list value.

Let self := DoManager_init module.
Let w2 := {| server := s2; calls := calls w1 ++ [records_request self] |}.

Hypothesis Hstate : Params.state module = State.present.
Hypothesis Hfind : find http self (start s) = (w1, Return dom).
Hypothesis Hdom : truthy dom = true.
Hypothesis Hrecords : http (records_request self) (server w1) = (s2, Ok resp).
Hypothesis Hsub : subscript resp "domain_records" = Ok records.
Hypothesis Hiter : iter records = Ok items.
Hypothesis Hscan : scan_records items VNone = Ok at_record.

Lemma core_found_step :
  core http module (start s) =
  bind (lift (getattr at_record "data"))
       (fun data =>
          if negb (eq_opt_str data (Params.ip module)) then
            bind (edit_domain_record http self)
                 (fun _ => bind (find http self)
                                (fun refreshed =>
                                   exit_json [("changed", VBool true);
                                              ("domain", refreshed)]))
          else ret tt) w2.
Proof.
  unfold core. fold self.
  rewrite (bind_return _ _ _ _ _ Hfind), Hstate, Hdom. cbn [negb].
  unfold all_domain_records. fold (records_request self).
  rewrite (bind_return _ _ (w1) w2 records).
  - rewrite (bind_return _ _ _ _ _ (lift_ok _ _ _ Hiter)).
    rewrite (bind_return _ _ _ _ _ (lift_ok _ _ _ Hscan)). reflexivity.
  - rewrite (bind_return _ _ _ _ _ (request_ok _ _ _ _ Hrecords)).
    apply lift_ok. exact Hsub.
Qed.

Lemma found_writes : writes (calls w2) = [].
Proof.
  unfold w2. simpl calls. unfold writes. rewrite filter_app.
  pose proof (find_writes _ _ _ _ Hfind) as H. unfold writes in H.
  rewrite H. reflexivity.
Qed.

(** No root "A" record: [at_record] is still [None], reading its [data]
    raises, and [main] turns the exception into its generic failure. *)
Lemma present_missing_root_record_raises :
  at_record = VNone ->
  core http module (start s)
  = (w2, Raise (AttributeError "'NoneType' object has no attribute 'data'"))
  /\ run http module s
     = (w2, Exit (FailJson
                    [("msg", VStr "'NoneType' object has no attribute 'data'");
                     ("exception",
                      VStr "AttributeError: 'NoneType' object has no attribute 'data'")])).
Proof.
  intros Hnone.
  assert (Hcore : core http module (start s)
                  = (w2, Raise (AttributeError
                                  "'NoneType' object has no attribute 'data'"))).
  { rewrite core_found_step, Hnone. reflexivity. }
  split; [exact Hcore|]. unfold run, main. fold (start s). rewrite Hcore.
  reflexivity.
Qed.

(** The record already holds the wanted address: no write is issued,
    and [core] returns without having called [exit_json] or
    [fail_json]. *)
Lemma present_same_ip_no_report (data : value) :
  getattr at_record "data" = Ok data ->
  eq_opt_str data (Params.ip module) = true ->
  run http module s = (w2, Return tt) /\ writes (calls w2) = [].
Proof.
  intros Hdata Heq. split; [|exact found_writes].
  unfold run, main. fold (start s). rewrite core_found_step.
  rewrite (bind_return _ _ _ _ _ (lift_ok _ _ _ Hdata)), Heq. reflexivity.
Qed.

(** The record holds another address: the one write of the run is the
    update request, whose path ends in the address and whose payload is
    the domain name. *)
Lemma present_other_ip_one_update (data : value) :
  getattr at_record "data" = Ok data ->
  eq_opt_str data (Params.ip module) = false ->
  writes (calls (fst (run http module s))) = [update_request self].
Proof.
  intros Hdata Heq. unfold run. fold (start s). rewrite main_world.
  rewrite core_found_step.
  rewrite (bind_return _ _ _ _ _ (lift_ok _ _ _ Hdata)), Heq. cbn [negb].
  destruct (edit_domain_record http self w2) as [w3 [rec|e|rep]] eqn:Hedit;
    pose proof (edit_domain_record_calls _ _ _ _ Hedit) as Hc.
  - rewrite (bind_return _ _ _ _ _ Hedit).
    destruct (find http self w3) as [w4 [v|e|rep]] eqn:Hf;
      [rewrite (bind_return _ _ _ _ _ Hf)|rewrite (bind_raise _ _ _ _ _ Hf)
       |rewrite (bind_exit _ _ _ _ _ Hf)];
      simpl fst; rewrite (find_writes _ _ _ _ Hf), Hc, writes_app, found_writes;
      reflexivity.
  - rewrite (bind_raise _ _ _ _ _ Hedit). simpl fst.
    rewrite Hc, writes_app, found_writes. reflexivity.
  - rewrite (bind_exit _ _ _ _ _ Hedit). simpl fst.
    rewrite Hc, writes_app, found_writes. reflexivity.
Qed.

End Found.

End Properties.

(** ** The sample runs *)

(** C9 at the sample provider: no parameter names the domain. *)
Lemma find_without_id_and_name_witness :
  find Provider.handle
       {| domain_name := None; domain_ip := Some "1.2.3.4"; domain_id := None |}
       (start (with_root "1.2.3.4"))
  = (start (with_root "1.2.3.4"), Return (VBool false)).
Proof.
  apply (find_without_id_and_name Provider.t Provider.handle); reflexivity.
Defined.

(** C10 at the sample provider: only the name is given, as in the
    examples of the module's documentation, and the domain exists. *)
Lemma find_with_only_one_of_id_and_name_witness :
  let module := example_params State.present "my.example.com" None "1.2.3.4" in
  let s := with_root "1.2.3.4" in
  (forall w, find Provider.handle (DoManager_init module) w = (w, Return (VBool false)))
  /\ (Params.state module = State.present ->
      calls (fst (run Provider.handle module s))
      = [create_request (DoManager_init module)])
  /\ (Params.state module = State.absent ->
      run Provider.handle module s = (start s, Exit not_found_report)).
Proof.
  intros module s.
  apply (find_with_only_one_of_id_and_name Provider.t Provider.handle module s).
  reflexivity.
Defined.

(** C8 at the sample provider: nothing listed has the id or the name. *)
Lemma absent_not_found_fails_witness :
  let module := example_params State.absent "gone.example.com" (Some 8) "1.2.3.4" in
  let s := with_root "1.2.3.4" in
  run Provider.handle module s
  = ({| server := s; calls := [GET "domains/"] |}, Exit not_found_report)
  /\ writes [GET "domains/"] = [].
Proof.
  intros module s.
  apply (absent_not_found_fails Provider.t Provider.handle module s
           {| server := s; calls := [GET "domains/"] |} (VBool false));
    reflexivity.
Defined.

(** C7 at the sample provider: domain 7 is listed and is deleted. *)
Lemma absent_found_deletes_witness :
  let module := example_params State.absent "my.example.com" (Some 7) "1.2.3.4" in
  let s := with_root "1.2.3.4" in
  let w1 := {| server := s; calls := [GET "domains/"] |} in
  let w2 := {| server := [{| Provider.id := 3; Provider.name := "other.example.org";
                             Provider.records := [a_record 11 "@" "10.0.0.1"] |}];
               calls := [GET "domains/"; DELETE "domains/7"] |} in
  destroy_domain Provider.handle (DoManager_init module) w1 = (w2, Return (VBool true))
  /\ run Provider.handle module s = (w2, Exit (ExitJson [("changed", VBool true)]))
  /\ writes (calls w2) = [DELETE "domains/7"].
Proof.
  intros module s w1 w2.
  apply (absent_found_deletes Provider.t Provider.handle module s (server w2) w1
           (VObj [("id", VInt 7); ("name", VStr "my.example.com")]) VNone);
    reflexivity.
Defined.

(** C6 at the sample provider: a new name is created, a taken one is
    refused with a message. *)
Lemma add_created_or_error_witness :
  let self := {| domain_name := Some "new.example.com";
                 domain_ip := Some "127.0.0.1"; domain_id := Some 9 |} in
  let s := with_root "1.2.3.4" in
  snd (add Provider.handle self (start s))
  = Return (VDict [("id", VInt 8); ("name", VStr "new.example.com")]).
Proof.
  intros self s.
  rewrite (add_created_or_error Provider.t Provider.handle self (start s)
             (fst (Provider.handle (create_request self) s))
             (VObj [("status_code", VInt 201);
                    ("json", VDict [("domain",
                                     VDict [("id", VInt 8);
                                            ("name", VStr "new.example.com")])])])
             (VInt 201)
             (VDict [("domain", VDict [("id", VInt 8);
                                       ("name", VStr "new.example.com")])])
             eq_refl eq_refl eq_refl).
  reflexivity.
Defined.



(** C1.  Domain 7 is found but has no root "A" record.  The run does not
    end in a missing-record failure of its own: [at_record] is still
    [None] when [core] reads [at_record.data], the [AttributeError] of
    that read reaches the handler of [main], and the failure reported is
    the text of the exception. *)
Theorem missing_root_record_dereferences_none :
  run Provider.handle
      (example_params State.present "my.example.com" (Some 7) "1.2.3.4")
      without_root
  = ({| server := without_root;
        calls := [GET "domains/"; GET "domains/7/records/"] |},
     Exit (FailJson
             [("msg", VStr "'NoneType' object has no attribute 'data'");
              ("exception",
               VStr "AttributeError: 'NoneType' object has no attribute 'data'")])).
Proof. reflexivity. Qed.

(** C2.  Domain 7 is found and its root "A" record already holds the
    wanted address.  No write is issued, but no result is reported
    either: [core] returns without calling [exit_json], and so does
    [main].  A second run on the provider the first one left behaves the
    same. *)
Theorem same_ip_run_reports_nothing :
  let module := example_params State.present "my.example.com" (Some 7) "1.2.3.4" in
  let s := with_root "1.2.3.4" in
  let w := {| server := s;
              calls := [GET "domains/"; GET "domains/7/records/"] |} in
  run Provider.handle module s = (w, Return tt)
  /\ writes (calls w) = []
  /\ run Provider.handle module (server (fst (run Provider.handle module s)))
     = (w, Return tt).
Proof. repeat split. Qed.

(** C3.  Only [name] is given, which [required_one_of] accepts, and the
    provider lists a domain of that name.  [find] answers not-found
    without listing the domains. *)
Theorem find_by_name_alone_skips_the_listing :
  let module := example_params State.present "my.example.com" None "1.2.3.4" in
  let s := with_root "1.2.3.4" in
  required_one_of module = true
  /\ existsb (fun d => String.eqb (Provider.name d) "my.example.com") s = true
  /\ find Provider.handle (DoManager_init module) (start s)
     = (start s, Return (VBool false)).
Proof. repeat split. Qed.

(** C4.  Domain 7 is found, its root "A" record holds "1.2.3.4" and the
    wanted address is "5.6.7.8".  One update call is issued, but it
    names the address where the record's id belongs and carries the
    domain name instead of the address: the provider finds no such
    record, the run ends in a failure, and the record still holds
    "1.2.3.4". *)
Theorem update_leaves_record_data :
  let module := example_params State.present "my.example.com" (Some 7) "5.6.7.8" in
  let s := with_root "1.2.3.4" in
  run Provider.handle module s
  = ({| server := s;
        calls := [GET "domains/"; GET "domains/7/records/";
                  PUT "domains/7/records/5.6.7.8"
                      (VDict [("name", VStr "my.example.com")])] |},
     Exit (FailJson [("msg", VStr "'domain_record'");
                     ("exception", VStr "KeyError: 'domain_record'")]))
  /\ Provider.root_data 7 (server (fst (run Provider.handle module s)))
     = ["1.2.3.4"].
Proof. repeat split. Qed.

(** ** The paths of a run *)

Section Paths.

Variable Server : Type.
Variable http : Request -> Server -> Server * res value.

Ltac split_in H :=
  match type of H with
  | context [match ?x with _ => _ end] =>
      lazymatch x with
      | context [match _ with _ => _ end] => fail
      | _ => destruct x eqn:?
      end
  end.

Ltac close_path :=
  first
    [ apply path_lookup_raised
    | apply (path_absent_not_found _ []); [reflexivity|now left]
    | apply (path_absent_not_found _ [listing_request]); [reflexivity|now right]
    | apply path_delete_raised; reflexivity
    | apply path_deleted; reflexivity
    | refine (path_create_raised _ [] _ _ _); [reflexivity|now left]
    | refine (path_create_raised _ [listing_request] _ _ _); [reflexivity|now right]
    | refine (path_create_refused _ [] _ _ _); [reflexivity|now left]
    | refine (path_create_refused _ [listing_request] _ _ _); [reflexivity|now right]
    | refine (path_created _ [] _ _ _); [reflexivity|now left]
    | refine (path_created _ [listing_request] _ _ _); [reflexivity|now right]
    | apply path_records_raised; reflexivity
    | apply path_unchanged; reflexivity
    | apply path_update_raised; reflexivity
    | apply path_refetch_raised; reflexivity
    | apply path_updated; reflexivity ].

Lemma core_paths (module : Params.t) (s : Server) (w : World Server)
      (r : Result unit) :
  core http module (start s) = (w, r) -> core_path module (calls w) r.
Proof.
  destruct module as [st tok n i a].
  unfold core, find, add, all_domain_records, all_domains, edit_domain_record,
    destroy_domain, bind, ret, lift, request, exit_json, fail_json, start.
  cbn [DoManager_init Params.state Params.name Params.id Params.ip
       domain_name domain_id domain_ip server calls app].
  intros H.
  repeat split_in H.
  all: try discriminate.
  all: inversion H; subst; clear H.
  all: cbn [calls app].
  all: close_path.
Qed.

Lemma run_paths (module : Params.t) (s : Server) :
  exists r0, core_path module (calls (fst (run http module s))) r0
             /\ snd (run http module s) = reported r0.
Proof.
  unfold run, main. fold (start s).
  destruct (core http module (start s)) as [w r0] eqn:Hcore.
  exists r0. apply core_paths in Hcore.
  destruct r0 as [[]|e|rep]; split; (exact Hcore || reflexivity).
Qed.

Lemma main_raise (module : Params.t) (w w' : World Server) (e : exn) :
  core http module w = (w', Raise e) ->
  main http module w = (w', reported (Raise e)).
Proof. unfold main. intros ->. reflexivity. Qed.

(** X1.  A run with [state=present] issues no write, or the create call
    alone, or the update call alone; a run with [state=absent] issues no
    write, or the delete call alone.  So no run writes twice, a present
    run never deletes and an absent run never creates or updates. *)
Theorem run_writes_by_state (module : Params.t) (s : Server) :
  let self := DoManager_init module in
  let issued := writes (calls (fst (run http module s))) in
  match Params.state module with
  | State.present =>
      issued = [] \/ issued = [create_request self]
      \/ issued = [update_request self]
  | State.absent =>
      issued = [] \/ issued = [delete_request self]
  end.
Proof.
  intros self issued. subst issued.
  destruct (run_paths module s) as [r0 [Hpath _]].
  destruct Hpath as [ | pre Hst Hpre | e Hst | Hst
                      | pre e Hst Hpre | pre msg Hst Hpre | pre d Hst Hpre
                      | e Hst | Hst | e Hst | e Hst | v Hst ];
    try rewrite Hst;
    try (destruct Hpre; subst pre);
    try (destruct (Params.state module));
    cbn; auto.
Qed.

(** X2.  No run issues more than four calls. *)
Theorem run_call_budget (module : Params.t) (s : Server) :
  (length (calls (fst (run http module s))) <= 4)%nat.
Proof.
  destruct (run_paths module s) as [r0 [Hpath _]].
  destruct Hpath as [ | pre Hst Hpre | e Hst | Hst
                      | pre e Hst Hpre | pre msg Hst Hpre | pre d Hst Hpre
                      | e Hst | Hst | e Hst | e Hst | v Hst ];
    try (destruct Hpre; subst pre); cbn; repeat constructor.
Qed.

(** X3.  A run that ends in [exit_json] reports [changed=True] and has
    issued exactly one write: the module has no way to report success
    without a change. *)
Theorem success_report_means_one_write (module : Params.t) (s : Server)
        (w : World Server) (kwargs : list (string * value)) :
  run http module s = (w, Exit (ExitJson kwargs)) ->
  lookup "changed" kwargs = Some (VBool true)
  /\ exists req, is_write req = true /\ writes (calls w) = [req].
Proof.
  intros Hrun. destruct (run_paths module s) as [r0 [Hpath Hrep]].
  rewrite Hrun in Hpath, Hrep. cbn [fst snd] in Hpath, Hrep.
  destruct Hpath as [ | pre Hst Hpre | e Hst | Hst
                      | pre e Hst Hpre | pre msg Hst Hpre | pre d Hst Hpre
                      | e Hst | Hst | e Hst | e Hst | v Hst ];
    cbn in Hrep; try discriminate; inversion Hrep; subst kwargs;
    (split; [reflexivity|]);
    try (destruct Hpre; subst pre); cbn; eexists;
    (refine (conj _ eq_refl)); reflexivity.
Qed.

(** X4.  A run that ends without any report is a run with
    [state=present] whose only calls were the domain listing and the
    record listing: [core] falls silent on the unchanged path and
    nowhere else. *)
Theorem silent_return_only_when_unchanged (module : Params.t) (s : Server)
        (w : World Server) :
  run http module s = (w, Return tt) ->
  Params.state module = State.present
  /\ calls w = [listing_request; records_request (DoManager_init module)].
Proof.
  intros Hrun. destruct (run_paths module s) as [r0 [Hpath Hrep]].
  rewrite Hrun in Hpath, Hrep. cbn [fst snd] in Hpath, Hrep.
  destruct Hpath as [ | pre Hst Hpre | e Hst | Hst
                      | pre e Hst Hpre | pre msg Hst Hpre | pre d Hst Hpre
                      | e Hst | Hst | e Hst | e Hst | v Hst ];
    cbn in Hrep; try discriminate.
  split; [exact Hst|reflexivity].
Qed.

(** X5.  When the lookup of the domain raises, whatever the state
    asked for, the run ends in the generic failure report with the text
    of the exception, and the listing was its only call. *)
Theorem lookup_failure_is_reported (module : Params.t) (s : Server)
        (w1 : World Server) (e : exn) :
  find http (DoManager_init module) (start s) = (w1, Raise e) ->
  run http module s
  = (w1, Exit (FailJson [("msg", VStr (to_native e));
                         ("exception", VStr (format_exc e))]))
  /\ calls w1 = [listing_request].
Proof.
  intros Hfind. split.
  - unfold run. fold (start s).
    apply (main_raise module (start s) w1 e).
    unfold core. apply bind_raise. exact Hfind.
  - destruct (find_calls _ http _ _ _ _ Hfind) as [[_ [Hr _]]|[Hc _]];
      [discriminate|exact Hc].
Qed.

(** X6.  With [state=absent], when the domain is found and the delete
    call raises, the run ends in the generic failure report with the
    text of the exception; the delete call is the one write attempted. *)
Theorem delete_failure_is_reported (module : Params.t) (s s2 : Server)
        (w1 : World Server) (dom : value) (e : exn) :
  Params.state module = State.absent ->
  find http (DoManager_init module) (start s) = (w1, Return dom) ->
  truthy dom = true ->
  http (delete_request (DoManager_init module)) (server w1) = (s2, Err e) ->
  run http module s
  = ({| server := s2;
        calls := [listing_request; delete_request (DoManager_init module)] |},
     Exit (FailJson [("msg", VStr (to_native e));
                     ("exception", VStr (format_exc e))])).
Proof.
  intros Hst Hfind Hdom Hdel.
  destruct (find_found _ http _ _ _ _ Hfind Hdom) as [Hc _].
  unfold run. fold (start s).
  apply (main_raise module (start s)).
  unfold core. rewrite (bind_return _ _ _ _ _ _ Hfind), Hst, Hdom. cbn [negb].
  rewrite (bind_return _ _ _ w1 w1 tt eq_refl).
  apply bind_raise. unfold destroy_domain. fold (delete_request (DoManager_init module)).
  apply bind_raise. unfold request. rewrite Hdel, Hc. reflexivity.
Qed.

(** X7.  With [state=present], when no domain is found and [add] raises
    (the helper raised, or the reply lacks [status_code], [json] or the
    created domain), the run ends in the generic failure report with the
    text of the exception, after the create call has been issued. *)
Theorem create_failure_is_reported (module : Params.t) (s : Server)
        (w1 w2 : World Server) (dom : value) (e : exn) :
  Params.state module = State.present ->
  find http (DoManager_init module) (start s) = (w1, Return dom) ->
  truthy dom = false ->
  add http (DoManager_init module) w1 = (w2, Raise e) ->
  run http module s
  = (w2, Exit (FailJson [("msg", VStr (to_native e));
                         ("exception", VStr (format_exc e))]))
  /\ writes (calls w2) = [create_request (DoManager_init module)].
Proof.
  intros Hst Hfind Hdom Hadd. split.
  - unfold run. fold (start s). apply (main_raise module (start s)).
    unfold core. rewrite (bind_return _ _ _ _ _ _ Hfind), Hst, Hdom. cbn [negb].
    apply bind_raise. exact Hadd.
  - apply add_calls in Hadd. rewrite Hadd, writes_app.
    rewrite (find_writes _ http _ _ _ _ Hfind). reflexivity.
Qed.

(** X8.  With [state=present], when no domain is found and the
    provider's reply carries no body ([add] returns [None]), the test
    ['message' in domain] raises: the run ends in the generic failure
    report with the text of that [TypeError], not with a message of the
    provider. *)
Theorem create_reply_without_body (module : Params.t) (s : Server)
        (w1 w2 : World Server) (dom : value) :
  Params.state module = State.present ->
  find http (DoManager_init module) (start s) = (w1, Return dom) ->
  truthy dom = false ->
  add http (DoManager_init module) w1 = (w2, Return VNone) ->
  run http module s
  = (w2, Exit (FailJson
                 [("msg", VStr "argument of type 'NoneType' is not iterable");
                  ("exception",
                   VStr "TypeError: argument of type 'NoneType' is not iterable")])).
Proof.
  intros Hst Hfind Hdom Hadd.
  unfold run. fold (start s).
  apply (main_raise module (start s) w2
           (TypeError "argument of type 'NoneType' is not iterable")).
  unfold core. rewrite (bind_return _ _ _ _ _ _ Hfind), Hst, Hdom. cbn [negb].
  rewrite (bind_return _ _ _ _ _ _ Hadd). reflexivity.
Qed.

(** *** What [find] finds *)

Lemma find_loop_sound (i : Z) (n : string) (items : list value) (v : value) :
  find_loop i n items = Ok v ->
  v = VBool false \/ (In v items /\ matches i n v = true).
Proof.
  induction items as [|d rest IH]; simpl; intros H.
  - left. congruence.
  - unfold matches.
    destruct (getattr d "id") as [x|e] eqn:Hid; [|discriminate].
    destruct (eq_int x i) eqn:Hx.
    + inversion H; subst v. right. split; [now left|].
      rewrite Hid, Hx. destruct (getattr d "name"); reflexivity.
    + destruct (getattr d "name") as [y|e] eqn:Hname; [|discriminate].
      destruct (eq_str y n) eqn:Hy.
      * inversion H; subst v. right. split; [now left|].
        rewrite Hid, Hx, Hname, Hy. reflexivity.
      * destruct (IH H) as [?|[? ?]]; [now left|right; split; [now right|assumption]].
Qed.

Lemma find_loop_complete (i : Z) (n : string) (items : list value) :
  find_loop i n items = Ok (VBool false) ->
  Forall (fun d => matches i n d = false) items.
Proof.
  induction items as [|d rest IH]; simpl; intros H; [constructor|].
  destruct (getattr d "id") as [x|e] eqn:Hid; [|discriminate].
  destruct (eq_int x i) eqn:Hx.
  - inversion H; subst d. discriminate.
  - destruct (getattr d "name") as [y|e] eqn:Hname; [|discriminate].
    destruct (eq_str y n) eqn:Hy.
    + inversion H; subst d. discriminate.
    + constructor; [|exact (IH H)].
      unfold matches. rewrite Hid, Hname, Hx, Hy. reflexivity.
Qed.

Lemma find_listing (self : DoManager) (w w' : World Server) (v : value)
      (n : string) (i : Z) :
  domain_name self = Some n ->
  domain_id self = Some i ->
  find http self w = (w', Return v) ->
  exists s' resp ds items,
    http listing_request (server w) = (s', Ok resp)
    /\ subscript resp "domains" = Ok ds
    /\ iter ds = Ok items
    /\ find_loop i n items = Ok v
    /\ w' = {| server := s'; calls := calls w ++ [listing_request] |}.
Proof.
  intros Hn Hi. unfold find, all_domains. rewrite Hn, Hi.
  unfold bind, request, lift, listing_request.
  destruct (http (GET "domains/") (server w)) as [s' [resp|e]] eqn:Hget;
    [|discriminate].
  destruct (subscript resp "domains") as [ds|e] eqn:Hsub; [|discriminate].
  destruct (iter ds) as [items|e] eqn:Hiter; [|discriminate].
  destruct (find_loop i n items) as [v'|e] eqn:Hloop; [|discriminate].
  intros H. inversion H; subst. exists s', resp, ds, items.
  repeat split; assumption.
Qed.

(** X9.  With both [id] and [name] given and a listing whose entries
    all have an [id] and a [name], [find] makes the one listing call and
    returns the first entry, in the order of the listing, whose id is the
    wanted id or whose name is the wanted name; it returns [False] when
    there is none.  An earlier entry that matches by name wins over a
    later one that matches by id. *)
Theorem find_returns_first_match (self : DoManager) (w : World Server)
        (n : string) (i : Z) (s' : Server) (resp ds : value) (items : list value) :
  domain_name self = Some n ->
  domain_id self = Some i ->
  http listing_request (server w) = (s', Ok resp) ->
  subscript resp "domains" = Ok ds ->
  iter ds = Ok items ->
  Forall well_formed items ->
  find http self w =
  ({| server := s'; calls := calls w ++ [listing_request] |},
   Return (match List.find (matches i n) items with
           | Some d => d
           | None => VBool false
           end)).
Proof.
  intros Hn Hi Hget Hsub Hiter Hwf.
  rewrite (find_supplied _ http self w n i s' resp ds items Hn Hi Hget Hsub Hiter).
  rewrite (find_loop_first_match i n items Hwf). reflexivity.
Qed.

(** X10.  Whatever the listing holds, a domain that [find] returns as
    found is an entry of the listing, and its id is the wanted id or its
    name is the wanted name. *)
Theorem find_sound (self : DoManager) (w w' : World Server) (dom : value) :
  find http self w = (w', Return dom) ->
  truthy dom = true ->
  exists n i s' resp ds items,
    domain_name self = Some n /\ domain_id self = Some i
    /\ http listing_request (server w) = (s', Ok resp)
    /\ subscript resp "domains" = Ok ds
    /\ iter ds = Ok items
    /\ In dom items
    /\ matches i n dom = true.
Proof.
  intros Hfind Hdom.
  destruct (find_found _ http _ _ _ _ Hfind Hdom) as [_ [n [i [Hn Hi]]]].
  destruct (find_listing _ _ _ _ _ _ Hn Hi Hfind)
    as [s' [resp [ds [items [Hget [Hsub [Hiter [Hloop _]]]]]]]].
  exists n, i, s', resp, ds, items.
  destruct (find_loop_sound _ _ _ _ Hloop) as [->|[Hin Hm]]; [discriminate|].
  repeat split; assumption.
Qed.

(** X11.  With both [id] and [name] given, when [find] returns [False]
    no entry of the listing has the wanted id or the wanted name. *)
Theorem find_complete (self : DoManager) (w w' : World Server)
        (n : string) (i : Z) :
  domain_name self = Some n ->
  domain_id self = Some i ->
  find http self w = (w', Return (VBool false)) ->
  exists s' resp ds items,
    http listing_request (server w) = (s', Ok resp)
    /\ subscript resp "domains" = Ok ds
    /\ iter ds = Ok items
    /\ Forall (fun d => matches i n d = false) items.
Proof.
  intros Hn Hi Hfind.
  destruct (find_listing _ _ _ _ _ _ Hn Hi Hfind)
    as [s' [resp [ds [items [Hget [Hsub [Hiter [Hloop _]]]]]]]].
  exists s', resp, ds, items. repeat split; try assumption.
  apply find_loop_complete. exact Hloop.
Qed.

(** *** The scan of the records *)

Lemma find_snoc {A : Type} (f : A -> bool) (l : list A) (x : A) :
  List.find f (l ++ [x]) =
  match List.find f l with
  | Some y => Some y
  | None => if f x then Some x else None
  end.
Proof.
  induction l as [|y l IH]; simpl; [reflexivity|].
  destruct (f y); [reflexivity|exact IH].
Qed.

Lemma scan_records_step (record : value) (rest : list value) (at_record : value) :
  scannable record ->
  scan_records (record :: rest) at_record =
  scan_records rest (if is_root record then record else at_record).
Proof.
  intros [n [Hn Ht]]. simpl. unfold is_root. rewrite Hn.
  destruct (eq_str n "@"); [|reflexivity].
  destruct (Ht eq_refl) as [t ->]. simpl. destruct (eq_str t "A"); reflexivity.
Qed.

(** X12.  Over records the scan can test, what is left in [at_record]
    is the last root "A" record of the listing; when there are several
    it is the last one whose data [core] compares, and when there is none
    [at_record] keeps the value it started with. *)
Theorem scan_records_keeps_last_root (records : list value) (at_record : value) :
  Forall scannable records ->
  scan_records records at_record =
  Ok (match List.find is_root (rev records) with
      | Some record => record
      | None => at_record
      end).
Proof.
  intros Hall. revert at_record.
  induction Hall as [|r rest Hr _ IH]; intros at_record; [reflexivity|].
  rewrite (scan_records_step r rest at_record Hr), IH.
  simpl rev. rewrite find_snoc.
  destruct (List.find is_root (rev rest)); [reflexivity|].
  destruct (is_root r); reflexivity.
Qed.

(** *** The update path *)

(** X14.  With [state=present] and no [ip] given, when the domain is
    found and its root record holds a string, the values always differ:
    the run issues the update call, and the path of that call ends in
    [None]. *)
Theorem missing_ip_updates_records_None (module : Params.t) (s s2 : Server)
        (w1 : World Server) (dom resp records at_record : value)
        (items : list value) (data : string) :
  let self := DoManager_init module in
  Params.state module = State.present ->
  Params.ip module = None ->
  find http self (start s) = (w1, Return dom) ->
  truthy dom = true ->
  http (records_request self) (server w1) = (s2, Ok resp) ->
  subscript resp "domain_records" = Ok records ->
  iter records = Ok items ->
  scan_records items VNone = Ok at_record ->
  getattr at_record "data" = Ok (VStr data) ->
  writes (calls (fst (run http module s)))
  = [PUT ("domains/" ++ fmt_int (Params.id module) ++ "/records/None")%string
         (VDict [("name", of_opt_str (Params.name module))])].
Proof.
  intros self Hst Hip Hfind Hdom Hrec Hsub Hiter Hscan Hdata.
  rewrite (present_other_ip_one_update _ http module s s2 w1 dom resp records
             at_record items Hst Hfind Hdom Hrec Hsub Hiter Hscan (VStr data) Hdata).
  - unfold update_request. cbn [DoManager_init domain_id domain_ip domain_name].
    rewrite Hip. reflexivity.
  - rewrite Hip. reflexivity.
Qed.

End Paths.

(** ** Sample runs of the paths *)

Lemma success_report_means_one_write_witness :
  let module := example_params State.absent "my.example.com" (Some 7) "1.2.3.4" in
  let s := with_root "1.2.3.4" in
  lookup "changed" [("changed", VBool true)] = Some (VBool true)
  /\ exists req, is_write req = true
                 /\ writes (calls (fst (run Provider.handle module s))) = [req].
Proof.
  intros module s.
  apply (success_report_means_one_write Provider.t Provider.handle module s
           (fst (run Provider.handle module s)) [("changed", VBool true)]).
  reflexivity.
Defined.

Lemma silent_return_only_when_unchanged_witness :
  let module := example_params State.present "my.example.com" (Some 7) "1.2.3.4" in
  let s := with_root "1.2.3.4" in
  Params.state module = State.present
  /\ calls (fst (run Provider.handle module s))
     = [GET "domains/"; GET "domains/7/records/"].
Proof.
  intros module s.
  apply (silent_return_only_when_unchanged Provider.t Provider.handle module s
           (fst (run Provider.handle module s))).
  reflexivity.
Defined.

Lemma lookup_failure_is_reported_witness :
  let module := example_params State.absent "my.example.com" (Some 7) "1.2.3.4" in
  let w1 := {| server := tt; calls := [GET "domains/"] |} in
  run unreachable module tt
  = (w1, Exit (FailJson [("msg", VStr "Connection refused");
                         ("exception", VStr "Exception: Connection refused")]))
  /\ calls w1 = [GET "domains/"].
Proof.
  intros module w1.
  apply (lookup_failure_is_reported unit unreachable module tt w1
           (HelperError "Connection refused")).
  reflexivity.
Defined.

Lemma delete_failure_is_reported_witness :
  let module := example_params State.absent "my.example.com" (Some 7) "1.2.3.4" in
  let s := with_root "1.2.3.4" in
  run read_only module s
  = ({| server := s; calls := [GET "domains/"; DELETE "domains/7"] |},
     Exit (FailJson [("msg", VStr "Forbidden");
                     ("exception", VStr "Exception: Forbidden")])).
Proof.
  intros module s.
  apply (delete_failure_is_reported Provider.t read_only module s s
           {| server := s; calls := [GET "domains/"] |}
           (VObj [("id", VInt 7); ("name", VStr "my.example.com")])
           (HelperError "Forbidden"));
    reflexivity.
Defined.

Lemma create_failure_is_reported_witness :
  let module := example_params State.present "my.example.com" None "1.2.3.4" in
  let w2 := {| server := tt;
               calls := [create_request (DoManager_init module)] |} in
  run unreachable module tt
  = (w2, Exit (FailJson [("msg", VStr "Connection refused");
                         ("exception", VStr "Exception: Connection refused")]))
  /\ writes (calls w2) = [create_request (DoManager_init module)].
Proof.
  intros module w2.
  apply (create_failure_is_reported unit unreachable module tt (start tt) w2
           (VBool false) (HelperError "Connection refused"));
    reflexivity.
Defined.

Lemma create_reply_without_body_witness :
  let module := example_params State.present "my.example.com" None "1.2.3.4" in
  run empty_reply module tt
  = ({| server := tt; calls := [create_request (DoManager_init module)] |},
     Exit (FailJson
             [("msg", VStr "argument of type 'NoneType' is not iterable");
              ("exception",
               VStr "TypeError: argument of type 'NoneType' is not iterable")])).
Proof.
  intros module.
  apply (create_reply_without_body unit empty_reply module tt (start tt)
           {| server := tt; calls := [create_request (DoManager_init module)] |}
           (VBool false));
    reflexivity.
Defined.

(** Two listed domains have the sought name or id: the first in the
    listing is returned, though it matches by name only. *)
Lemma find_returns_first_match_witness :
  let self := {| domain_name := Some "other.example.org";
                 domain_ip := None; domain_id := Some 7 |} in
  let s := with_root "1.2.3.4" in
  find Provider.handle self (start s)
  = ({| server := s; calls := [GET "domains/"] |},
     Return (VObj [("id", VInt 3); ("name", VStr "other.example.org")])).
Proof.
  intros self s.
  apply (find_returns_first_match Provider.t Provider.handle self (start s)
           "other.example.org" 7 s
           (VDict [("domains", VList (map Provider.domain_obj s))])
           (VList (map Provider.domain_obj s))
           (map Provider.domain_obj s));
    try reflexivity.
  repeat constructor; eexists; eexists; split; reflexivity.
Defined.

Lemma find_sound_witness :
  let self := {| domain_name := Some "my.example.com";
                 domain_ip := None; domain_id := Some 7 |} in
  let dom := VObj [("id", VInt 7); ("name", VStr "my.example.com")] in
  exists n i s' resp ds items,
    domain_name self = Some n /\ domain_id self = Some i
    /\ Provider.handle listing_request (with_root "1.2.3.4") = (s', Ok resp)
    /\ subscript resp "domains" = Ok ds
    /\ iter ds = Ok items
    /\ In dom items
    /\ matches i n dom = true.
Proof.
  intros self dom.
  apply (find_sound Provider.t Provider.handle self (start (with_root "1.2.3.4"))
           {| server := with_root "1.2.3.4"; calls := [GET "domains/"] |} dom);
    reflexivity.
Defined.

Lemma find_complete_witness :
  let self := {| domain_name := Some "gone.example.com";
                 domain_ip := None; domain_id := Some 8 |} in
  exists s' resp ds items,
    Provider.handle listing_request (with_root "1.2.3.4") = (s', Ok resp)
    /\ subscript resp "domains" = Ok ds
    /\ iter ds = Ok items
    /\ Forall (fun d => matches 8 "gone.example.com" d = false) items.
Proof.
  intros self.
  apply (find_complete Provider.t Provider.handle self (start (with_root "1.2.3.4"))
           {| server := with_root "1.2.3.4"; calls := [GET "domains/"] |}
           "gone.example.com" 8);
    reflexivity.
Defined.

(** Two root "A" records: the later one is kept.  The record without a
    type is passed over, its name not being "@". *)
Lemma scan_records_keeps_last_root_witness :
  scan_records
    [Provider.record_obj (a_record 22 "@" "1.1.1.1");
     VObj [("name", VStr "www")];
     Provider.record_obj (a_record 24 "@" "2.2.2.2");
     Provider.record_obj ns_record]
    VNone
  = Ok (Provider.record_obj (a_record 24 "@" "2.2.2.2")).
Proof.
  apply (scan_records_keeps_last_root
           [Provider.record_obj (a_record 22 "@" "1.1.1.1");
            VObj [("name", VStr "www")];
            Provider.record_obj (a_record 24 "@" "2.2.2.2");
            Provider.record_obj ns_record]
           VNone).
  repeat constructor; eexists; (split; [reflexivity|]); cbn;
    intros H; try discriminate H; eexists; reflexivity.
Defined.

Lemma missing_ip_updates_records_None_witness :
  let module := Params.mk State.present None (Some "my.example.com") (Some 7) None in
  let s := with_root "1.2.3.4" in
  writes (calls (fst (run Provider.handle module s)))
  = [PUT "domains/7/records/None" (VDict [("name", VStr "my.example.com")])].
Proof.
  intros module s.
  apply (missing_ip_updates_records_None Provider.t Provider.handle module s s
           {| server := s; calls := [GET "domains/"] |}
           (VObj [("id", VInt 7); ("name", VStr "my.example.com")])
           (VDict [("domain_records",
                    VList (map Provider.record_obj
                               [ns_record; a_record 22 "@" "1.2.3.4";
                                a_record 23 "www" "1.2.3.4"]))])
           (VList (map Provider.record_obj
                       [ns_record; a_record 22 "@" "1.2.3.4";
                        a_record 23 "www" "1.2.3.4"]))
           (Provider.record_obj (a_record 22 "@" "1.2.3.4"))
           (map Provider.record_obj
                [ns_record; a_record 22 "@" "1.2.3.4"; a_record 23 "www" "1.2.3.4"])
           "1.2.3.4");
    reflexivity.
Defined.
